(** * DFM: the two Flask teaching services

    A shallow embedding of

    - [chapter-04-working-with-docker/02-python-flask-app/app.py]
      (called variant A below), and
    - [templates/dockerfiles/python/app.py] (variant B),

    together with the part of the Flask request cycle that the two files
    rely on: the rules an application object starts with and the ones
    [app.route] adds, the router's treatment of the request path, the
    conversion of a view's return value into a response, the default
    responses for HTTP errors, and the start of the development server by
    [app.run].  Requests are plain HTTP requests: the router's separate
    handling of a websocket handshake is not modelled.

    Python dictionaries are finite maps ([gmap]) with string keys;
    [os.environ] is such a map from names to values.  A response body is
    kept as the JSON value handed to [jsonify], not as its serialised bytes,
    so two bodies are equal when they are the same JSON object. *)

From Stdlib Require Import Ascii.
From stdpp Require Import gmap strings list fin_maps.

Local Open Scope Z_scope.
Local Open Scope string_scope.

(** ** The Python runtime, as far as the handlers see it *)

Module Py.

(** What a handler can observe of its process: [os.environ], [sys.version],
    and the debug flag Flask derives from its own configuration sources
    when the application object is created. *)
Record process := Process {
  environ : gmap string string;
  sys_version : string;
  config_debug : bool
}.

(** [os.getenv(key, default)]: the value when the name is set (also when
    it is set to the empty string), the default otherwise. *)
Definition getenv (key dflt : string) (env : gmap string string) : string :=
  match env !! key with
  | Some v => v
  | None => dflt
  end.

(** [os.environ[key] = value] and [del os.environ[key]]. *)
Definition environ_set (key value : string) (p : process) : process :=
  Process (<[key := value]> (environ p)) (sys_version p) (config_debug p).

Definition environ_del (key : string) (p : process) : process :=
  Process (delete key (environ p)) (sys_version p) (config_debug p).

(** A dict display [{k1: v1, k2: v2, ...}]: items are stored left to
    right, a later item replacing an earlier one with the same key. *)
Definition dict {V : Type} (items : list (string * V)) : gmap string V :=
  fold_left (fun d kv => <[kv.1 := kv.2]> d) items ∅.

End Py.

(** ** Requests and responses *)

Module Http.

Inductive http_method := GET | HEAD | OPTIONS | POST | PUT | PATCH | DELETE.

#[global] Instance http_method_eq_dec : EqDecision http_method.
Proof. solve_decision. Defined.

Record request := Request {
  req_method : http_method;
  req_path : string;
  req_query : string;
  req_headers : list (string * string);
  req_data : string
}.

(** JSON scalars; the handlers only ever build strings. *)
Inductive json_value :=
| JNull
| JBool (b : bool)
| JNumber (n : Z)
| JString (s : string).

Inductive http_exception :=
| NotFound
| MethodNotAllowed
| InternalServerError
| RequestRedirect (location : string).   (* the router's own redirect *)

Definition code (e : http_exception) : Z :=
  match e with
  | NotFound => 404
  | MethodNotAllowed => 405
  | InternalServerError => 500
  | RequestRedirect _ => 308
  end.

Inductive body :=
| Json (o : gmap string json_value)   (* a jsonify'd dict *)
| ErrorPage (e : http_exception)      (* the framework's own error page *)
| Empty.

Record response := Response {
  status_code : Z;
  mimetype : string;
  payload : body
}.

Definition is_2xx (r : response) : bool :=
  bool_decide (200 ≤ status_code r < 300).

End Http.

(** ** The part of Flask the two applications use *)

Module Flask.
Import Py Http.

(** What a view function hands back: a response object, or a
    [(response, status)] pair. *)
Inductive view_rv :=
| RvResponse (r : response)
| RvWithStatus (r : response) (status : Z).

Inductive outcome :=
| Return (rv : view_rv)
| Abort (e : http_exception)     (* an HTTPException was raised *)
| Raise (exc : string).          (* any other exception *)

(** A view runs inside a request context and inside the process: both are
    ambient in Python, explicit here. *)
Abbreviation view := (request → process → outcome).

(** A URL rule is a literal path, or a directory below which a
    [<path:...>] variable takes the rest of the path. *)
Inductive pattern :=
| Static (path : string)
| PathBelow (dir : string).

Record rule := Rule {
  rule_pattern : pattern;
  rule_methods : list http_method;
  rule_endpoint : string
}.

Record flask := FlaskApp {
  url_map : list rule;
  view_functions : gmap string view;
  error_handlers : gmap Z (http_exception → response);
  debug : bool
}.

(** The view behind Flask's own rule for static files.  Neither application
    has a [static] directory beside its [app.py], so no file is ever
    found. *)
Definition send_static_file : view := fun _ _ => Abort NotFound.

(** [Flask(__name__)]: the application starts with the rule
    [/static/<path:filename>] (GET, with HEAD and the automatic OPTIONS)
    and no error handlers; the debug flag comes from the configuration. *)
Definition Flask (import_name : string) (p : process) : flask :=
  FlaskApp [Rule (PathBelow "/static") [GET; HEAD; OPTIONS] "static"]
           (<["static" := send_static_file]> ∅)
           ∅
           (config_debug p).

(** [@app.route(path)] above [def name(): ...].  No [methods=] is given in
    either file, so the rule answers GET, and with it HEAD and the
    automatic OPTIONS. *)
Definition route (path name : string) (f : view) (app : flask) : flask :=
  FlaskApp (url_map app ++ [Rule (Static path) [GET; HEAD; OPTIONS] name])
           (<[name := f]> (view_functions app))
           (error_handlers app)
           (debug app).

(** [jsonify(d)]: status 200, JSON mimetype. *)
Definition jsonify (d : gmap string json_value) : response :=
  Response 200 "application/json" (Json d).

Definition make_response (rv : view_rv) : response :=
  match rv with
  | RvResponse r => r
  | RvWithStatus r s => Response s (mimetype r) (payload r)
  end.

(** *** The router's view of a path *)

Definition is_slash (c : Ascii.ascii) : bool := Ascii.eqb c "/"%char.

Definition is_newline (c : Ascii.ascii) : bool := Ascii.eqb c "010"%char.

(** [path_info.lstrip('/')] *)
Fixpoint lstrip_slashes (s : string) : string :=
  match s with
  | String c s' => if is_slash c then lstrip_slashes s' else s
  | EmptyString => EmptyString
  end.

(** The path the rules are matched against: an empty path stays empty,
    any other path has its leading slashes replaced by a single one. *)
Definition path_part (path_info : string) : string :=
  match path_info with
  | EmptyString => EmptyString
  | _ => String "/" (lstrip_slashes path_info)
  end.

(** The second try of the router: every pair of adjacent slashes, read
    from the left, becomes one slash. *)
Fixpoint merge_slashes (s : string) : string :=
  match s with
  | EmptyString => EmptyString
  | String c s' =>
      match s' with
      | String c' rest =>
          if is_slash c && is_slash c'
          then String "/" (merge_slashes rest)
          else String c (merge_slashes s')
      | EmptyString => String c EmptyString
      end
  end.

Fixpoint strip_prefix (pre s : string) : option string :=
  match pre, s with
  | EmptyString, _ => Some s
  | String a pre', String b s' =>
      if Ascii.eqb a b then strip_prefix pre' s' else None
  | String _ _, EmptyString => None
  end.

Fixpoint ends_with_slash (s : string) : bool :=
  match s with
  | EmptyString => false
  | String c EmptyString => is_slash c
  | String _ s' => ends_with_slash s'
  end.

Fixpoint no_newline (s : string) : bool :=
  match s with
  | EmptyString => true
  | String c s' => negb (is_newline c) && no_newline s'
  end.

(** What a [<path:...>] variable accepts: a first character that is not a
    slash, followed by anything up to the end that has no line break. *)
Definition path_variable (f : string) : bool :=
  match f with
  | EmptyString => false
  | String c rest => negb (is_slash c) && no_newline rest
  end.

(** The part of [path] that lies below the directory [dir], if any. *)
Definition below (dir path : string) : option string :=
  strip_prefix (dir ++ "/") path.

Definition pattern_matches (pat : pattern) (path : string) : bool :=
  match pat with
  | Static s => bool_decide (s = path)
  | PathBelow dir =>
      match below dir path with
      | Some f => path_variable f
      | None => false
      end
  end.

(** A rule that ends in a slash is also recognised in a path that lacks
    just this slash. *)
Definition slash_missing (pat : pattern) (path : string) : bool :=
  match pat with
  | Static s => ends_with_slash s && bool_decide (s = path ++ "/")
  | PathBelow _ => false
  end.

Inductive attempt :=
| Hit (ru : rule)
| SlashRequired
| Miss (have_match_for : list http_method).

(** One pass over the rules.  Of the rules whose pattern fits the path the
    first one that answers the method is taken; the methods of the others
    are remembered.  Failing that, a rule that answers the method and only
    lacks the final slash asks for a redirect.  The rules of the two
    applications never fit the same path, so the order among them plays no
    part. *)
Definition try_match (rules : list rule) (path : string) (m : http_method)
  : attempt :=
  let fitting :=
    List.filter (fun ru => pattern_matches (rule_pattern ru) path) rules in
  match List.find (fun ru => bool_decide (m ∈ rule_methods ru)) fitting with
  | Some ru => Hit ru
  | None =>
      if existsb (fun ru => slash_missing (rule_pattern ru) path
                            && bool_decide (m ∈ rule_methods ru)) rules
      then SlashRequired
      else Miss (flat_map rule_methods fitting)
  end.

(** The router: the path as it stands first; when nothing fits, the path
    with its slashes merged, and a hit there is answered with a redirect to
    the merged path.  With no hit at all the request is refused: 405 when
    some rule fitted the path but not the method, 404 otherwise. *)
Definition url_match (rules : list rule) (req : request)
  : http_exception + rule :=
  let path := path_part (req_path req) in
  let m := req_method req in
  match try_match rules path m with
  | Hit ru => inr ru
  | SlashRequired => inl (RequestRedirect (path ++ "/"))
  | Miss seen =>
      let merged := merge_slashes path in
      match try_match rules merged m with
      | Hit _ => inl (RequestRedirect merged)
      | SlashRequired => inl (RequestRedirect (merged ++ "/"))
      | Miss seen' =>
          match (seen ++ seen')%list with
          | [] => inl NotFound
          | _ :: _ => inl MethodNotAllowed
          end
      end
  end.

Definition default_options_response : response :=
  Response 200 "text/html" Empty.

Definition dispatch_request (app : flask) (req : request) (p : process)
  : outcome :=
  match url_match (url_map app) req with
  | inl e => Abort e
  | inr r =>
      if bool_decide (req_method req = OPTIONS)
      then Return (RvResponse default_options_response)
      else match view_functions app !! rule_endpoint r with
           | Some f => f req p
           | None => Raise "KeyError"
           end
  end.

(** [HTTPException.get_response()]. *)
Definition get_response (e : http_exception) : response :=
  Response (code e) "text/html" (ErrorPage e).

(** A redirect of the router is passed on as it is.  For any other HTTP
    exception a registered handler for the status code wins; without one
    the exception itself is the response. *)
Definition handle_http_exception (app : flask) (e : http_exception)
  : response :=
  match e with
  | RequestRedirect _ => get_response e
  | _ =>
      match error_handlers app !! code e with
      | Some h => h e
      | None => get_response e
      end
  end.

Definition full_dispatch_request (app : flask) (req : request) (p : process)
  : response :=
  match dispatch_request app req p with
  | Return rv => make_response rv
  | Abort e => handle_http_exception app e
  | Raise _ => handle_http_exception app InternalServerError
  end.

(** The WSGI entry point: a HEAD request gets the headers of the GET
    response and no body. *)
Definition wsgi_app (app : flask) (req : request) (p : process) : response :=
  let r := full_dispatch_request app req p in
  if bool_decide (req_method req = HEAD)
  then Response (status_code r) (mimetype r) Empty
  else r.

(** The arguments [app.run] passes on to the development server. *)
Record server_config := ServerConfig {
  srv_host : string;
  srv_port : Z;
  srv_debug : bool;
  use_reloader : bool
}.

(** [app.run(host=None, port=None, debug=None)] in the process [p].  With
    FLASK_RUN_FROM_CLI set to "true" the call returns at once and no server
    is started.  Otherwise a [debug] argument overrides the application's
    flag, an absent one leaves it alone, and the reloader follows the
    resulting flag. *)
Definition run (app : flask) (p : process) (host : option string)
    (port : option Z) (dbg : option bool) : option server_config :=
  if bool_decide (environ p !! "FLASK_RUN_FROM_CLI" = Some "true")
  then None
  else
    let d := match dbg with Some b => b | None => debug app end in
    Some (ServerConfig (default "127.0.0.1" host) (default 5000 port) d d).

End Flask.

(** ** Variant A: chapter-04-working-with-docker/02-python-flask-app/app.py *)

Module VariantA.
Import Py Http Flask.

Definition hello : view := fun _ p =>
  Return (RvResponse (jsonify (dict [
    ("message", JString "Hello from Docker!");
    ("environment", JString (getenv "ENVIRONMENT" "development" (environ p)));
    ("version", JString (getenv "APP_VERSION" "1.0.0" (environ p)))
  ]))).

Definition health : view := fun _ _ =>
  Return (RvWithStatus (jsonify (dict [("status", JString "healthy")])) 200).

(** The module body up to the [__main__] guard, run in a process [p0]
    under the module name [name]. *)
Definition app (name : string) (p0 : process) : flask :=
  route "/health" "health" health
    (route "/" "hello" hello
       (Flask name p0)).

(** [if __name__ == '__main__': app.run(host='0.0.0.0', port=5000, debug=False)] *)
Definition main (name : string) (p0 : process) : option server_config :=
  if bool_decide (name = "__main__")
  then run (app name p0) p0 (Some "0.0.0.0") (Some 5000) (Some false)
  else None.

End VariantA.

(** ** Variant B: templates/dockerfiles/python/app.py *)

Module VariantB.
Import Py Http Flask.

Definition index : view := fun _ p =>
  Return (RvResponse (jsonify (dict [
    ("message", JString "Python Docker Template");
    ("python_version", JString (sys_version p));
    ("environment", JString (getenv "ENVIRONMENT" "development" (environ p)))
  ]))).

Definition health : view := fun _ _ =>
  Return (RvWithStatus (jsonify (dict [("status", JString "healthy")])) 200).

Definition app (name : string) (p0 : process) : flask :=
  route "/health" "health" health
    (route "/" "index" index
       (Flask name p0)).

(** [if __name__ == '__main__': app.run(host='0.0.0.0', port=8000)] *)
Definition main (name : string) (p0 : process) : option server_config :=
  if bool_decide (name = "__main__")
  then run (app name p0) p0 (Some "0.0.0.0") (Some 8000) None
  else None.

End VariantB.

(** ** A running server

    Requests arrive one after the other; between them the process
    environment may be changed.  Each request is answered in the process
    state current at that moment. *)

Module Server.
Import Py Http Flask.

Inductive event :=
| Setenv (key value : string)
| Unsetenv (key : string)
| Incoming (req : request).

Definition update (p : process) (e : event) : process :=
  match e with
  | Setenv k v => environ_set k v p
  | Unsetenv k => environ_del k p
  | Incoming _ => p
  end.

Definition answer (app : flask) (p : process) (e : event) : list response :=
  match e with
  | Incoming req => [wsgi_app app req p]
  | _ => []
  end.

Fixpoint serve (app : flask) (p : process) (evs : list event)
  : list response :=
  match evs with
  | [] => []
  | e :: evs' => answer app p e ++ serve app (update p e) evs'
  end.


End Server.

(** ** Observations used in the statements *)

Import Py Http Flask Server.

Definition is_get (r : request) (path : string) : Prop :=
  req_method r = GET ∧ req_path r = path.

Definition json_field (key : string) (r : response) : option json_value :=
  match payload r with
  | Json o => o !! key
  | _ => None
  end.

(** ** The two applications side by side *)

Inductive variant := A | B.

Definition app_of (v : variant) : string → process → flask :=
  match v with
  | A => VariantA.app
  | B => VariantB.app
  end.





(** The shape of the rule table of either application: Flask's rule for
    static files, then the rules for / and /health. *)
Definition three_rules (ms : list http_method) (e1 e2 e3 : string)
  : list rule :=
  [Rule (PathBelow "/static") ms e1;
   Rule (Static "/") ms e2;
   Rule (Static "/health") ms e3].

Definition starts_with_slash (s : string) : bool :=
  match s with
  | String c _ => is_slash c
  | EmptyString => false
  end.

Fixpoint no_slash (s : string) : bool :=
  match s with
  | EmptyString => true
  | String c s' => negb (is_slash c) && no_slash s'
  end.

(** Two processes in which everything a variant's views read is the same:
    ENVIRONMENT for both, APP_VERSION for variant A, [sys.version] for
    variant B. *)
Definition reads_same (v : variant) (p1 p2 : process) : Prop :=
  environ p1 !! "ENVIRONMENT" = environ p2 !! "ENVIRONMENT"
  ∧ match v with
    | A => environ p1 !! "APP_VERSION" = environ p2 !! "APP_VERSION"
    | B => sys_version p1 = sys_version p2
    end.

(** A process with the two variables set to the empty string and a secret
    beside them. *)
Definition blank_process : process :=
  Process {[ "ENVIRONMENT" := ""; "APP_VERSION" := "";
             "API_TOKEN" := "s3cret" ]}
          "3.12.1 (main, Dec  8 2023)" false.

(** Concrete inputs for the examples below. *)
Definition bare_process : process := Process ∅ "3.11.4 (main, Jun  7 2023)" false.

Definition staging_process : process :=
  Process {[ "ENVIRONMENT" := "staging"; "APP_VERSION" := "2.3.1" ]}
          "3.11.4 (main, Jun  7 2023)" true.

(** A process started with the flag the [flask] command sets. *)
Definition cli_process : process :=
  Process {[ "FLASK_RUN_FROM_CLI" := "true"; "ENVIRONMENT" := "staging" ]}
          "3.11.4 (main, Jun  7 2023)" false.

Definition get (path : string) : request := Request GET path "" [] "".

Definition noisy_get (path : string) : request :=
  Request GET path "debug=1&environment=prod"
          [("X-Forwarded-For", "10.0.0.7"); ("Accept", "text/plain")]
          "{ 'environment': 'prod' }".

(** ** The router's paths *)

Lemma is_slash_true (c : Ascii.ascii) : is_slash c = true → c = "/"%char.
Proof. apply Ascii.eqb_eq. Qed.

Lemma lstrip_slashes_head (s : string) :
  starts_with_slash (lstrip_slashes s) = false.
Proof.
  induction s as [|c s IH]; simpl.
  - reflexivity.
  - destruct (is_slash c) eqn:Hc; [exact IH | simpl; exact Hc].
Qed.

(** The path the rules see is empty, or one slash followed by something
    that does not start with a slash. *)
Lemma path_part_shape (path_info : string) :
  path_part path_info = EmptyString
  ∨ ∃ s, path_part path_info = String "/" s ∧ starts_with_slash s = false.
Proof.
  destruct path_info as [|c s]; [left; reflexivity | right].
  eexists. split; [reflexivity | apply lstrip_slashes_head].
Qed.

Lemma merge_slashes_cons (c : Ascii.ascii) (s : string) :
  is_slash c = false →
  merge_slashes (String c s) = String c (merge_slashes s).
Proof.
  intros Hc. destruct s as [|c' s]; simpl; [reflexivity|].
  now rewrite Hc.
Qed.

Lemma merge_slashes_after_slash (s : string) :
  starts_with_slash s = false →
  merge_slashes (String "/" s) = String "/" (merge_slashes s).
Proof.
  intros Hs. destruct s as [|c s]; [reflexivity|].
  simpl in Hs. cbn [merge_slashes]. rewrite Hs, andb_false_r. reflexivity.
Qed.

(** Merging keeps the first character. *)
Lemma merge_slashes_first (c : Ascii.ascii) (s : string) :
  ∃ s', merge_slashes (String c s) = String c s'.
Proof.
  destruct s as [|c' s]; cbn [merge_slashes]; [eexists; reflexivity|].
  destruct (is_slash c) eqn:Hc; [|eexists; reflexivity].
  destruct (is_slash c') eqn:Hc'; [|eexists; reflexivity].
  rewrite (is_slash_true _ Hc). eexists; reflexivity.
Qed.

(** A string without slashes is the merged form of itself only. *)
Lemma merge_slashes_no_slash (t : string) :
  no_slash t = true → ∀ s, merge_slashes s = t → s = t.
Proof.
  induction t as [|a t IH]; intros Ht s Hs.
  - destruct s as [|c s]; [reflexivity|].
    destruct (merge_slashes_first c s) as [s' Hs']. congruence.
  - simpl in Ht. apply andb_prop in Ht as [Ha Ht].
    apply negb_true_iff in Ha.
    destruct s as [|c s]; [discriminate|].
    destruct (merge_slashes_first c s) as [s' Hs'].
    assert (c = a) as -> by congruence.
    rewrite (merge_slashes_cons _ _ Ha) in Hs.
    injection Hs as Hs. now rewrite (IH Ht s Hs).
Qed.

(** A path that lies below a slash-free directory name after merging lay
    below it before. *)
Lemma strip_prefix_merge_slashes (t : string) :
  no_slash t = true →
  ∀ s, is_Some (strip_prefix (t ++ "/") (merge_slashes s)) →
       is_Some (strip_prefix (t ++ "/") s).
Proof.
  induction t as [|a t IH]; intros Ht s Hs.
  - change (EmptyString ++ "/") with "/" in *.
    destruct s as [|c s]; [exact Hs|].
    destruct (merge_slashes_first c s) as [s' Hs']. rewrite Hs' in Hs.
    cbn [strip_prefix] in *.
    destruct (Ascii.eqb "/" c); [eauto | exact Hs].
  - simpl in Ht. apply andb_prop in Ht as [Ha Ht].
    apply negb_true_iff in Ha.
    change (String a t ++ "/") with (String a (t ++ "/")) in *.
    destruct s as [|c s]; [exact Hs|].
    destruct (merge_slashes_first c s) as [s' Hs'].
    cbn [strip_prefix].
    destruct (Ascii.eqb a c) eqn:Hac.
    + apply Ascii.eqb_eq in Hac as <-.
      rewrite (merge_slashes_cons _ _ Ha) in Hs. cbn [strip_prefix] in Hs.
      rewrite Ascii.eqb_refl in Hs. now apply IH.
    + rewrite Hs' in Hs. cbn [strip_prefix] in Hs. now rewrite Hac in Hs.
Qed.

(** ** The request cycle, step by step *)

Section Dispatch.
Context (app : flask) (req : request) (p : process).

Lemma dispatch_view (ru : rule) (f : view) :
  url_match (url_map app) req = inr ru →
  req_method req ≠ OPTIONS →
  view_functions app !! rule_endpoint ru = Some f →
  dispatch_request app req p = f req p.
Proof.
  intros Hm Hopt Hf. unfold dispatch_request.
  rewrite Hm, (bool_decide_eq_false_2 _ Hopt). now rewrite Hf.
Qed.

Lemma wsgi_app_not_head :
  req_method req ≠ HEAD →
  wsgi_app app req p = full_dispatch_request app req p.
Proof.
  intros Hne. unfold wsgi_app. now rewrite (bool_decide_eq_false_2 _ Hne).
Qed.

Lemma wsgi_app_status :
  status_code (wsgi_app app req p)
  = status_code (full_dispatch_request app req p).
Proof. unfold wsgi_app. now case_bool_decide. Qed.

End Dispatch.

(** The router looks at the method and the path of a request only. *)
Lemma url_match_ext (rules : list rule) (r r' : request) :
  req_method r = req_method r' → req_path r = req_path r' →
  url_match rules r = url_match rules r'.
Proof. unfold url_match. now intros -> ->. Qed.

(** A GET request whose path has a rule is answered by that rule's view. *)
Lemma wsgi_get (app : flask) (r : request) (p : process)
    (path : string) (ru : rule) (f : view) (rv : view_rv) :
  is_get r path →
  url_match (url_map app) (get path) = inr ru →
  view_functions app !! rule_endpoint ru = Some f →
  f r p = Return rv →
  dispatch_request app r p = Return rv ∧ wsgi_app app r p = make_response rv.
Proof.
  intros [Hmeth Hpath] Hm Hf Hrv.
  rewrite <- (url_match_ext _ r (get path) Hmeth Hpath) in Hm.
  assert (dispatch_request app r p = Return rv) as Hd.
  { rewrite (dispatch_view app r p ru f Hm) by (rewrite ?Hmeth; done).
    exact Hrv. }
  split; [exact Hd|].
  rewrite wsgi_app_not_head by (rewrite Hmeth; discriminate).
  unfold full_dispatch_request. now rewrite Hd.
Qed.

(** ** The routes of the two applications *)

Section Routes.
Context (name : string) (p0 p : process) (r : request).

Lemma root_A :
  is_get r "/" →
  dispatch_request (VariantA.app name p0) r p = VariantA.hello r p
  ∧ wsgi_app (VariantA.app name p0) r p
    = jsonify (dict [
        ("message", JString "Hello from Docker!");
        ("environment", JString (getenv "ENVIRONMENT" "development" (environ p)));
        ("version", JString (getenv "APP_VERSION" "1.0.0" (environ p)))]).
Proof.
  intros Hget.
  apply (wsgi_get _ _ _ "/" (Rule (Static "/") [GET; HEAD; OPTIONS] "hello")
                  VariantA.hello); done.
Qed.

Lemma root_B :
  is_get r "/" →
  dispatch_request (VariantB.app name p0) r p = VariantB.index r p
  ∧ wsgi_app (VariantB.app name p0) r p
    = jsonify (dict [
        ("message", JString "Python Docker Template");
        ("python_version", JString (sys_version p));
        ("environment", JString (getenv "ENVIRONMENT" "development" (environ p)))]).
Proof.
  intros Hget.
  apply (wsgi_get _ _ _ "/" (Rule (Static "/") [GET; HEAD; OPTIONS] "index")
                  VariantB.index); done.
Qed.


Lemma no_error_handler (v : variant) (e : http_exception) :
  handle_http_exception (app_of v name p0) e = get_response e.
Proof. now destruct v, e. Qed.

End Routes.

(** The rules of either application: Flask's own for static files, then
    the two of the file. *)
Lemma url_map_app_of (v : variant) (name : string) (p0 : process) :
  ∃ root : string,
    url_map (app_of v name p0)
    = [Rule (PathBelow "/static") [GET; HEAD; OPTIONS] "static";
       Rule (Static "/") [GET; HEAD; OPTIONS] root;
       Rule (Static "/health") [GET; HEAD; OPTIONS] "health"].
Proof. destruct v; eexists; reflexivity. Qed.

Section NoRule.
Context (e1 e2 e3 : string) (ms : list http_method).

Local Abbreviation rules := (three_rules ms e1 e2 e3).

(** A path that is not empty, not one of the two literal paths and not
    below /static/ fits no rule, with or without a final slash. *)
Lemma try_match_no_rule (path : string) (m : http_method) :
  path ≠ EmptyString → path ≠ "/" → path ≠ "/health" →
  below "/static" path = None →
  try_match rules path m = Miss [].
Proof.
  intros Hempty Hroot Hhealth Hstatic.
  assert (bool_decide ("/" = path ++ "/") = false) as Hslash.
  { apply bool_decide_eq_false_2. intros Heq. apply Hempty.
    destruct path as [|c [|c' path]]; [reflexivity | discriminate | discriminate]. }
  unfold try_match, three_rules. cbn [List.filter rule_pattern pattern_matches].
  rewrite Hstatic.
  rewrite (bool_decide_eq_false_2 ("/" = path)) by congruence.
  rewrite (bool_decide_eq_false_2 ("/health" = path)) by congruence.
  cbn [List.find flat_map existsb rule_pattern slash_missing].
  rewrite Hslash. reflexivity.
Qed.

Lemma url_match_no_rule (r : request) :
  path_part (req_path r) ≠ EmptyString →
  path_part (req_path r) ≠ "/" →
  path_part (req_path r) ≠ "/health" →
  below "/static" (path_part (req_path r)) = None →
  url_match rules r = inl NotFound.
Proof.
  intros Hempty Hroot Hhealth Hstatic. unfold url_match.
  rewrite (try_match_no_rule _ _ Hempty Hroot Hhealth Hstatic).
  destruct (path_part_shape (req_path r)) as [Hq | (s & Hq & Hs)];
    [contradiction|].
  rewrite Hq in *. rewrite (merge_slashes_after_slash _ Hs).
  rewrite try_match_no_rule; [reflexivity | discriminate | | |].
  - intros Heq. apply Hroot. injection Heq as Heq.
    now rewrite (merge_slashes_no_slash EmptyString eq_refl s Heq).
  - intros Heq. apply Hhealth. injection Heq as Heq.
    now rewrite (merge_slashes_no_slash "health" eq_refl s Heq).
  - destruct (below "/static" (String "/" (merge_slashes s))) as [f|] eqn:Hb;
      [|reflexivity].
    exfalso. unfold below in Hb, Hstatic.
    change ("/static" ++ "/") with (String "/" ("static" ++ "/")) in Hb, Hstatic.
    cbn [strip_prefix] in Hb, Hstatic.
    rewrite Ascii.eqb_refl in Hb, Hstatic.
    destruct (strip_prefix_merge_slashes "static" eq_refl s) as [f' Hf'].
    + rewrite Hb. eauto.
    + rewrite Hf' in Hstatic. discriminate.
Qed.

End NoRule.

(** ** The server loop *)



Lemma dict3_lookups {V : Type} (k1 k2 k3 : string) (v1 v2 v3 : V) :
  k1 ≠ k2 → k1 ≠ k3 → k2 ≠ k3 →
  dict [(k1, v1); (k2, v2); (k3, v3)] !! k1 = Some v1
  ∧ dict [(k1, v1); (k2, v2); (k3, v3)] !! k2 = Some v2
  ∧ dict [(k1, v1); (k2, v2); (k3, v3)] !! k3 = Some v3.
Proof.
  intros H12 H13 H23. unfold dict. simpl. repeat split.
  - rewrite lookup_insert_ne by (apply not_eq_sym; assumption).
    rewrite lookup_insert_ne by (apply not_eq_sym; assumption). apply lookup_insert_eq.
  - rewrite lookup_insert_ne by (apply not_eq_sym; assumption). apply lookup_insert_eq.
  - apply lookup_insert_eq.
Qed.






Section RootFields.
Context (name : string) (p0 p : process) (r : request).

Lemma root_fields_A :
  is_get r "/" →
  json_field "environment" (wsgi_app (VariantA.app name p0) r p)
  = Some (JString (getenv "ENVIRONMENT" "development" (environ p)))
  ∧ json_field "version" (wsgi_app (VariantA.app name p0) r p)
    = Some (JString (getenv "APP_VERSION" "1.0.0" (environ p))).
Proof.
  intros Hget. destruct (root_A name p0 p r Hget) as [_ ->].
  unfold json_field, jsonify. cbn [payload].
  split; now apply dict3_lookups.
Qed.

Lemma root_fields_B :
  is_get r "/" →
  json_field "environment" (wsgi_app (VariantB.app name p0) r p)
  = Some (JString (getenv "ENVIRONMENT" "development" (environ p)))
  ∧ json_field "python_version" (wsgi_app (VariantB.app name p0) r p)
    = Some (JString (sys_version p)).
Proof.
  intros Hget. destruct (root_B name p0 p r Hget) as [_ ->].
  unfold json_field, jsonify. cbn [payload].
  split; now apply dict3_lookups.
Qed.

Lemma root_environment (v : variant) :
  is_get r "/" →
  json_field "environment" (wsgi_app (app_of v name p0) r p)
  = Some (JString (getenv "ENVIRONMENT" "development" (environ p))).
Proof.
  intros Hget. destruct v; [apply root_fields_A | apply root_fields_B];
    exact Hget.
Qed.

End RootFields.

(** * The claims *)













(** A change of the environment between two requests shows in the second
    answer. *)
Lemma environment_change_reflected
    (v : variant) (name : string) (p0 p : process) (r : request) (value : string) :
  is_get r "/" →
  json_field "environment" <$>
    serve (app_of v name p0) p [Incoming r; Setenv "ENVIRONMENT" value; Incoming r]
  = [Some (JString (getenv "ENVIRONMENT" "development" (environ p)));
     Some (JString value)].
Proof.
  intros Hget. simpl. rewrite !(root_environment _ _ _ _ v Hget). simpl.
  unfold getenv at 2. now rewrite lookup_insert_eq.
Qed.



(** C8, as amended.  Run as the main module in a process that does not have
    FLASK_RUN_FROM_CLI set to "true", variant A starts its server on
    0.0.0.0, port 5000, with debug and the reloader off; variant B starts
    it on 0.0.0.0, port 8000, and passes no [debug], so that debug and the
    reloader stay as the application's configuration has them.  Host and
    port are the same in every such process. *)
Theorem listening_configuration (p0 : process) :
  environ p0 !! "FLASK_RUN_FROM_CLI" ≠ Some "true" →
  VariantA.main "__main__" p0 = Some (ServerConfig "0.0.0.0" 5000 false false)
  ∧ VariantB.main "__main__" p0
    = Some (ServerConfig "0.0.0.0" 8000 (config_debug p0) (config_debug p0)).
Proof.
  intros Hcli. unfold VariantA.main, VariantB.main, run.
  rewrite (bool_decide_eq_false_2 _ Hcli). split; reflexivity.
Qed.

Lemma listening_configuration_witness :
  environ staging_process !! "FLASK_RUN_FROM_CLI" ≠ Some "true"
  ∧ VariantA.main "__main__" staging_process
    = Some (ServerConfig "0.0.0.0" 5000 false false)
  ∧ VariantB.main "__main__" staging_process
    = Some (ServerConfig "0.0.0.0" 8000 true true).
Proof.
  split; [discriminate|].
  apply (listening_configuration staging_process). discriminate.
Defined.

(** C8 as first stated fails: with FLASK_RUN_FROM_CLI set to "true" in the
    environment, [app.run] returns without starting a server, in both
    variants. *)
Lemma no_server_under_cli_flag :
  VariantA.main "__main__" cli_process = None
  ∧ VariantB.main "__main__" cli_process = None
  ∧ VariantA.main "__main__" cli_process
    ≠ Some (ServerConfig "0.0.0.0" 5000 false false).
Proof. split; [reflexivity|]. split; [reflexivity | discriminate]. Qed.

(** Variant B started with the debug flag configured runs with debug and
    the reloader on; variant A does not. *)
Example debug_left_to_configuration :
  VariantA.main "__main__" staging_process
  = Some (ServerConfig "0.0.0.0" 5000 false false)
  ∧ VariantB.main "__main__" staging_process
    = Some (ServerConfig "0.0.0.0" 8000 true true).
Proof. split; reflexivity. Qed.

(** Imported rather than run, neither module starts a server. *)
Example imported_module_does_not_listen (p0 : process) :
  VariantA.main "app" p0 = None ∧ VariantB.main "app" p0 = None.
Proof. split; reflexivity. Qed.

(** C9, as amended.  The router reduces the leading slashes of a path to
    one before it looks for a rule.  A request whose path, so reduced, is
    not empty, is neither / nor /health and does not lie below /static/ is
    answered, in both variants and for every method, with the framework's
    own not-found response: status 404, which is not a 2xx status.  The
    not-found is an HTTP exception raised and handled inside the request
    cycle, not an exception that escapes the application. *)
Theorem undefined_path_not_found
    (v : variant) (name : string) (p0 p : process) (r : request) :
  path_part (req_path r) ≠ EmptyString →
  path_part (req_path r) ≠ "/" →
  path_part (req_path r) ≠ "/health" →
  below "/static" (path_part (req_path r)) = None →
  dispatch_request (app_of v name p0) r p = Abort NotFound
  ∧ full_dispatch_request (app_of v name p0) r p = get_response NotFound
  ∧ status_code (wsgi_app (app_of v name p0) r p) = 404
  ∧ is_2xx (wsgi_app (app_of v name p0) r p) = false.
Proof.
  intros Hempty Hroot Hhealth Hstatic.
  assert (dispatch_request (app_of v name p0) r p = Abort NotFound) as Hd.
  { unfold dispatch_request.
    destruct (url_map_app_of v name p0) as [root ->].
    fold (three_rules [GET; HEAD; OPTIONS] "static" root "health").
    now rewrite (url_match_no_rule _ _ _ _ r Hempty Hroot Hhealth Hstatic). }
  assert (full_dispatch_request (app_of v name p0) r p = get_response NotFound)
    as Hnf
    by (unfold full_dispatch_request; rewrite Hd; apply no_error_handler).
  assert (status_code (wsgi_app (app_of v name p0) r p) = 404) as Hst
    by (rewrite wsgi_app_status, Hnf; reflexivity).
  split; [exact Hd|]. split; [exact Hnf|]. split; [exact Hst|].
  unfold is_2xx. rewrite Hst. reflexivity.
Qed.

Lemma undefined_path_not_found_witness :
  path_part (req_path (noisy_get "//nonexistent/")) ≠ EmptyString
  ∧ path_part (req_path (noisy_get "//nonexistent/")) ≠ "/"
  ∧ path_part (req_path (noisy_get "//nonexistent/")) ≠ "/health"
  ∧ below "/static" (path_part (req_path (noisy_get "//nonexistent/"))) = None
  ∧ dispatch_request (app_of A "__main__" bare_process)
      (noisy_get "//nonexistent/") bare_process = Abort NotFound
  ∧ full_dispatch_request (app_of A "__main__" bare_process)
      (noisy_get "//nonexistent/") bare_process = get_response NotFound
  ∧ status_code
      (wsgi_app (app_of A "__main__" bare_process)
         (noisy_get "//nonexistent/") bare_process) = 404
  ∧ is_2xx
      (wsgi_app (app_of A "__main__" bare_process)
         (noisy_get "//nonexistent/") bare_process) = false.
Proof.
  split; [discriminate|]. split; [discriminate|]. split; [discriminate|].
  split; [reflexivity|].
  apply (undefined_path_not_found A "__main__" bare_process bare_process
           (noisy_get "//nonexistent/"));
    [discriminate | discriminate | discriminate | reflexivity].
Defined.

(** C9 as first stated fails: the path //health is neither / nor /health,
    yet the router reduces it to /health and the health view answers with
    status 200. *)
Lemma doubled_slash_reaches_health :
  req_path (get "//health") ≠ "/"
  ∧ req_path (get "//health") ≠ "/health"
  ∧ wsgi_app (app_of A "__main__" bare_process) (get "//health") bare_process
    = Response 200 "application/json" (Json {[ "status" := JString "healthy" ]})
  ∧ status_code
      (wsgi_app (app_of A "__main__" bare_process) (get "//health")
         bare_process) ≠ 404
  ∧ is_2xx
      (wsgi_app (app_of A "__main__" bare_process) (get "//health")
         bare_process) = true.
Proof.
  split; [discriminate|]. split; [discriminate|].
  split; [reflexivity|]. split; [discriminate | reflexivity].
Qed.



(** * Further properties of the two applications *)

(** X2. Neither file passes [methods=] to [app.route]: a POST, PUT, PATCH
    or DELETE request to / or /health is turned away by the router with the
    framework's own 405 response, and no view runs. *)
Theorem other_methods_not_allowed
    (v : variant) (name : string) (p0 p : process) (r : request) :
  req_path r = "/" ∨ req_path r = "/health" →
  req_method r ∉ [GET; HEAD; OPTIONS] →
  dispatch_request (app_of v name p0) r p = Abort MethodNotAllowed
  ∧ wsgi_app (app_of v name p0) r p = get_response MethodNotAllowed.
Proof.
  intros Hpath Hmeth. destruct r as [m path q h d]. simpl in *.
  destruct m; try (exfalso; apply Hmeth; repeat constructor; fail);
    destruct Hpath as [-> | ->]; destruct v; split; reflexivity.
Qed.

Lemma other_methods_not_allowed_witness :
  (req_path (Request POST "/health" "" [] "{}") = "/"
   ∨ req_path (Request POST "/health" "" [] "{}") = "/health")
  ∧ (req_method (Request POST "/health" "" [] "{}") ∉ [GET; HEAD; OPTIONS])
  ∧ dispatch_request (app_of A "__main__" bare_process)
      (Request POST "/health" "" [] "{}") bare_process
    = Abort MethodNotAllowed
  ∧ wsgi_app (app_of A "__main__" bare_process)
      (Request POST "/health" "" [] "{}") bare_process
    = get_response MethodNotAllowed.
Proof.
  assert (POST ∉ [GET; HEAD; OPTIONS]) as Hm
    by (apply (bool_decide_unpack _); reflexivity).
  split; [right; reflexivity|]. split; [exact Hm|].
  apply (other_methods_not_allowed A "__main__" bare_process bare_process
           (Request POST "/health" "" [] "{}")).
  - right; reflexivity.
  - exact Hm.
Defined.



(** A request is answered the same in two process states in which every
    registered view returns the same: nothing else in the request cycle
    looks at the process. *)
Lemma wsgi_app_via_views (app : flask) (r : request) (p1 p2 : process) :
  (∀ (ep : string) (f : view),
      view_functions app !! ep = Some f → f r p1 = f r p2) →
  wsgi_app app r p1 = wsgi_app app r p2.
Proof.
  intros Hviews.
  assert (dispatch_request app r p1 = dispatch_request app r p2) as Hd.
  { unfold dispatch_request. destruct (url_match (url_map app) r) as [e|ru].
    - reflexivity.
    - case_bool_decide; [reflexivity|].
      destruct (view_functions app !! rule_endpoint ru) as [f|] eqn:Hf.
      + now apply (Hviews (rule_endpoint ru)).
      + reflexivity. }
  unfold wsgi_app, full_dispatch_request. now rewrite Hd.
Qed.

Lemma getenv_same_lookup (key dflt : string) (env1 env2 : gmap string string) :
  env1 !! key = env2 !! key → getenv key dflt env1 = getenv key dflt env2.
Proof. unfold getenv. now intros ->. Qed.

(** X4. An answer depends on the process only through what the views read:
    ENVIRONMENT in both variants, APP_VERSION in variant A, [sys.version]
    in variant B.  Two processes that agree on these get the same answer to
    every request, so no other environment variable can reach or alter a
    response. *)
Theorem only_read_variables_matter
    (v : variant) (name : string) (p0 p1 p2 : process) (r : request) :
  reads_same v p1 p2 →
  wsgi_app (app_of v name p0) r p1 = wsgi_app (app_of v name p0) r p2.
Proof.
  intros [Henv Hrest]. apply wsgi_app_via_views. intros ep f Hf.
  destruct v; simpl in Hf, Hrest;
    apply lookup_insert_Some in Hf as [[_ <-] | [_ Hf]];
    try reflexivity;
    apply lookup_insert_Some in Hf as [[_ <-] | [_ Hf]];
    try (apply lookup_insert_Some in Hf as [[_ <-] | [_ Hf]];
         [reflexivity | rewrite lookup_empty in Hf; discriminate]).
  - unfold VariantA.hello.
    now rewrite (getenv_same_lookup "ENVIRONMENT" _ _ _ Henv),
                (getenv_same_lookup "APP_VERSION" _ _ _ Hrest).
  - unfold VariantB.index.
    now rewrite (getenv_same_lookup "ENVIRONMENT" _ _ _ Henv), Hrest.
Qed.

Lemma only_read_variables_matter_witness :
  reads_same A blank_process (environ_del "API_TOKEN" blank_process)
  ∧ wsgi_app (app_of A "__main__" bare_process) (get "/") blank_process
    = wsgi_app (app_of A "__main__" bare_process) (get "/")
        (environ_del "API_TOKEN" blank_process).
Proof.
  assert (reads_same A blank_process (environ_del "API_TOKEN" blank_process))
    as Hsame by (split; reflexivity).
  split; [exact Hsame|].
  apply (only_read_variables_matter A "__main__" bare_process). exact Hsame.
Defined.


